(** * Role-based access control: policy interrogation

    A shallow embedding of [AbstractRoleBasedAccessControlRepository.js],
    [MethodAccessControlRepository.js] and [default-method-policy.js],
    together with the part of the JavaScript run time those files rely on
    (truthiness, [typeof], [Array.prototype.includes] and [RegExp.prototype.test]). *)

From Stdlib Require Import List Bool NArith Arith Lia String Ascii.
Import ListNotations.

Set Implicit Arguments.
Set Warnings "-register-all".

(** ** The JavaScript fragment used by the repository *)

Module Js.

(** A JavaScript string is a sequence of UTF-16 code units. *)
Definition JsString := list N.

(** A string literal of the source, one code unit per character. *)
Definition str (s : string) : JsString :=
  map N_of_ascii (list_ascii_of_string s).

(** The four LineTerminator code points: LF, CR, LS and PS. *)
Definition isLineTerminator (c : N) : bool :=
  ((c =? 10) || (c =? 13) || (c =? 8232) || (c =? 8233))%N.

(** The pattern syntax the policies of the repository are written in;
    none of the patterns carries a flag, so [^] and [$] are anchored to the
    whole input and [.] excludes the line terminators. *)
Inductive RegExp : Type :=
| Empty                       (* the empty pattern *)
| Chr (c : N)                 (* a literal character *)
| Dot                         (* .  *)
| Bol                         (* ^  *)
| Eol                         (* $  *)
| Seq (r1 r2 : RegExp)        (* r1r2 *)
| Alt (r1 r2 : RegExp)        (* r1|r2 *)
| Star (r : RegExp)           (* r* *)
| Plus (r : RegExp)           (* r+ *)
| Opt (r : RegExp).           (* r? *)

(** A matcher takes whether the current position is the start of the input,
    the rest of the input, and a continuation. *)
Definition Continuation := bool -> JsString -> bool.
Definition Matcher := bool -> JsString -> Continuation -> bool.

(** Iteration of a matcher; an iteration that consumes nothing is rejected,
    so [length s] further iterations are all there can be. *)
Fixpoint repeatMatcher (m : Matcher) (fuel : nat) (atStart : bool) (s : JsString)
  (k : Continuation) : bool :=
  k atStart s ||
  match fuel with
  | O => false
  | S fuel' =>
      m atStart s (fun atStart' s' =>
        (List.length s' <? List.length s) && repeatMatcher m fuel' atStart' s' k)
  end.

Fixpoint compile (r : RegExp) : Matcher :=
  fun atStart s k =>
  match r with
  | Empty => k atStart s
  | Chr c =>
      match s with
      | x :: s' => (x =? c)%N && k false s'
      | [] => false
      end
  | Dot =>
      match s with
      | x :: s' => negb (isLineTerminator x) && k false s'
      | [] => false
      end
  | Bol => atStart && k atStart s
  | Eol =>
      match s with
      | [] => k atStart s
      | _ :: _ => false
      end
  | Seq r1 r2 => compile r1 atStart s (fun atStart' s' => compile r2 atStart' s' k)
  | Alt r1 r2 => compile r1 atStart s k || compile r2 atStart s k
  | Star r1 => repeatMatcher (compile r1) (List.length s) atStart s k
  | Plus r1 =>
      compile r1 atStart s (fun atStart' s' =>
        repeatMatcher (compile r1) (List.length s') atStart' s' k)
  | Opt r1 => compile r1 atStart s k || k atStart s
  end.

(** A match may start at any position of the input. *)
Fixpoint search (r : RegExp) (atStart : bool) (s : JsString) : bool :=
  compile r atStart s (fun _ _ => true) ||
  match s with
  | [] => false
  | _ :: s' => search r false s'
  end.

(** [RegExp.prototype.test] of a pattern without flags. *)
Definition test (r : RegExp) (s : JsString) : bool := search r true s.

(** A literal word as a pattern. *)
Fixpoint word (s : JsString) : RegExp :=
  match s with
  | [] => Empty
  | c :: s' => Seq (Chr c) (word s')
  end.

(** [`^${s}$`] *)
Definition exactly (s : string) : RegExp := Seq Bol (Seq (word (str s)) Eol).

Section Values.

(** What a strategy function is called with: [{ role, securable, data }]. *)
Variables Securable Data : Type.

(** The values a [strategy] property can hold, and a strategy function can
    return. Strategy functions are taken to be pure and total. *)
Inductive Value : Type :=
| VUndefined
| VNull
| VBoolean (b : bool)
| VNumber (n : N)
| VString (s : JsString)
| VObject
| VFunction (f : JsString -> Securable -> Data -> Value).

Inductive TypeTag : Type :=
| TUndefined | TObject | TBoolean | TNumber | TString | TFunction.

Definition typeof (v : Value) : TypeTag :=
  match v with
  | VUndefined => TUndefined
  | VNull => TObject
  | VBoolean _ => TBoolean
  | VNumber _ => TNumber
  | VString _ => TString
  | VObject => TObject
  | VFunction _ => TFunction
  end.

(** ToBoolean *)
Definition truthy (v : Value) : bool :=
  match v with
  | VUndefined | VNull => false
  | VBoolean b => b
  | VNumber n => negb (n =? 0)%N
  | VString s => match s with [] => false | _ :: _ => true end
  | VObject | VFunction _ => true
  end.

(** [typeof v === tag] *)
Definition tagEq (a b : TypeTag) : bool :=
  match a, b with
  | TUndefined, TUndefined | TObject, TObject | TBoolean, TBoolean
  | TNumber, TNumber | TString, TString | TFunction, TFunction => true
  | _, _ => false
  end.

(** [v === b] for a boolean [b] *)
Definition strictEquals (v : Value) (b : bool) : bool :=
  match v with
  | VBoolean b' => Bool.eqb b' b
  | _ => false
  end.

(** [a || b] *)
Definition or_else (a b : Value) : Value := if truthy a then a else b.

End Values.

Arguments VUndefined {Securable Data}.
Arguments VNull {Securable Data}.
Arguments VBoolean {Securable Data} b.
Arguments VNumber {Securable Data} n.
Arguments VString {Securable Data} s.
Arguments VObject {Securable Data}.

(** No code unit of the string is a line terminator. *)
Definition singleLine (s : JsString) : bool :=
  forallb (fun c => negb (isLineTerminator c)) s.

Definition nonEmpty (s : JsString) : bool :=
  match s with
  | [] => false
  | _ :: _ => true
  end.

(** [Array.prototype.includes] on an array of booleans. *)
Fixpoint includes (l : list bool) (x : bool) : bool :=
  match l with
  | [] => false
  | y :: l' => Bool.eqb y x || includes l' x
  end.

End Js.

(** ** AbstractRoleBasedAccessControlRepository *)

Module Rbac.
Import Js.

Inductive Error : Type :=
| MethodNotImplementedError
| MissingRequiredArgumentError
| IllegalArgumentError.

(** The [role] of a request: a role name, or an array whose members are
    handed to the same operation again. *)
Inductive RoleArg : Type :=
| Role (name : JsString)
| Roles (members : list RoleArg).

Section Repository.

(** [Fields] are the properties of a policy entry beside [roles] and
    [strategy]; they identify the securable and are carried along by the
    object spread of [_scrubPolicy]. *)
Variables Fields Securable Data : Type.

(** A policy entry. [roles] is [None] when the property is absent (or
    falsy), and a regular expression otherwise; [strategy] is any value,
    [VUndefined] when absent. *)
Record Entry : Type := {
  roles : option RegExp;
  strategy : Value Securable Data;
  fields : Fields
}.

(** What the constructor is called with: nothing (or another falsy
    value), a truthy value that is not an array, or an array of entries. *)
Inductive PolicyArg : Type :=
| NoPolicy
| NotAnArray
| PolicyArray (policy : list Entry).

Record Repository : Type := { _policy : list Entry }.

(** The abstract method [_filterSecurable], which every concrete
    repository overrides; the body of the base class raises
    [MethodNotImplementedError], so there is no instance for it. *)
Class SecurableFilter : Type :=
  _filterSecurable : Entry -> Securable -> bool.

Context {filter : SecurableFilter}.

(** The default of [entry.roles || /^.+$/]. *)
Definition allRoles : RegExp := Seq Bol (Seq (Plus Dot) Eol).

Definition _scrubPolicy (policy : list Entry) : list Entry :=
  map (fun entry =>
         {| roles := Some match roles entry with
                          | Some r => r
                          | None => allRoles
                          end;
            strategy := or_else (strategy entry) (VBoolean false);
            fields := fields entry |})
      policy.

Definition constructor (policy : PolicyArg) : Error + Repository :=
  match policy with
  | NoPolicy => inl MissingRequiredArgumentError
  | NotAnArray => inl IllegalArgumentError
  | PolicyArray policy => inr {| _policy := _scrubPolicy policy |}
  end.

Definition _filterRoles (entry : Entry) (role : JsString) : bool :=
  match roles entry with
  | None => true
  | Some r => test r role
  end.

Definition _findEntries (this : Repository) (role : JsString)
  (securable : Securable) : list Entry :=
  List.filter
    (fun entry => _filterRoles entry role && _filterSecurable entry securable)
    (_policy this).

(** [typeof v === 'boolean' && v === permit] *)
Definition isBoolean (v : Value Securable Data) (permit : bool) : bool :=
  tagEq (typeof v) TBoolean && strictEquals v permit.

Fixpoint _interrogate (entries : list Entry) (role : JsString)
  (securable : Securable) (data : Data) (permit : bool) : bool :=
  match entries with
  | [] => false
  | it :: rest =>
      if isBoolean (strategy it) permit then true
      else
        match strategy it with
        | VFunction f =>
            let permitted := truthy (f role securable data) in
            if permit && permitted then true
            else if negb permit && negb permitted then false
            else _interrogate rest role securable data permit
        | _ => _interrogate rest role securable data permit
        end
  end.

Definition _permits (entries : list Entry) (role : JsString)
  (securable : Securable) (data : Data) : bool :=
  _interrogate entries role securable data true.

Definition _explicitlyDenies (entries : list Entry) (role : JsString)
  (securable : Securable) (data : Data) : bool :=
  _interrogate entries role securable data false.

Fixpoint explicitlyDenies (this : Repository) (role : RoleArg)
  (securable : Securable) (data : Data) : bool :=
  match role with
  | Roles members =>
      let results :=
        map (fun it => explicitlyDenies this it securable data) members in
      includes results true
  | Role role =>
      _explicitlyDenies (_findEntries this role securable) role securable data
  end.

Fixpoint permits (this : Repository) (role : RoleArg)
  (securable : Securable) (data : Data) : bool :=
  match role with
  | Roles members =>
      negb (includes
              (map (fun it => explicitlyDenies this it securable data) members)
              true)
      && includes (map (fun it => permits this it securable data) members) true
  | Role role =>
      let entries := _findEntries this role securable in
      negb (_explicitlyDenies entries role securable data)
      && _permits entries role securable data
  end.

End Repository.

Arguments NoPolicy {Fields Securable Data}.
Arguments NotAnArray {Fields Securable Data}.

End Rbac.

(** ** MethodAccessControlRepository *)

Module Method.
Import Js Rbac.

(** The securable of a request, [{ class, method }]; a property that is
    absent reads as [undefined]. *)
Record MethodSecurable : Type := {
  class : option JsString;
  method : option JsString
}.

(** [securable] itself may be absent: [securable?.class]. *)
Definition Securable : Type := option MethodSecurable.

(** The [classes] and [methods] patterns of a policy entry. *)
Record MethodFields : Type := {
  classes : RegExp;
  methods : RegExp
}.

Section Method.

Variable Data : Type.

Definition MethodEntry : Type := Entry MethodFields Securable Data.

(** ToString of the argument of [test]. *)
Definition toString (s : option JsString) : JsString :=
  match s with
  | Some s => s
  | None => str "undefined"
  end.

(** [securable?.p] *)
Definition optional (p : MethodSecurable -> option JsString)
  (securable : Securable) : option JsString :=
  match securable with
  | Some s => p s
  | None => None
  end.

#[export] Instance _filterSecurable : SecurableFilter MethodFields Securable Data :=
  fun entry securable =>
    test (classes (fields entry)) (toString (optional class securable))
    && test (methods (fields entry)) (toString (optional method securable)).

(** The pattern [/^.*$/] of default-method-policy.js. *)
Definition anything : RegExp := Seq Bol (Seq (Star Dot) Eol).

(** default-method-policy.js *)
Definition DEFAULT_POLICY : list MethodEntry :=
  [ {| roles := Some anything;
       strategy := VBoolean true;
       fields := {| classes := anything; methods := anything |} |} ].

Definition constructor (policy : PolicyArg MethodFields Securable Data)
  : Error + Repository MethodFields Securable Data :=
  Rbac.constructor
    match policy with
    | NoPolicy => PolicyArray DEFAULT_POLICY
    | _ => policy
    end.

End Method.

End Method.

(** ** The policies and requests of the unit tests *)

Module Examples.
Import Js Rbac Method.

Definition Policy : Type := list (MethodEntry unit).

(** [{ class: 'Foo', method: 'bar' }] *)
Definition fooBar : Securable :=
  Some {| class := Some (str "Foo"); method := Some (str "bar") |}.

(** The role of the requests. *)
Definition Cowboy : RoleArg := Role (str "Cowboy").

(** An entry for role Cowboy on Foo.bar. *)
Definition cowboy (s : Value Securable unit) : MethodEntry unit :=
  {| roles := Some (exactly "Cowboy");
     strategy := s;
     fields := {| classes := exactly "Foo"; methods := exactly "bar" |} |}.

(** The policy of 'should deny with a single denial'. *)
Definition singleDenial : Policy :=
  [cowboy (VBoolean true); cowboy (VBoolean true); cowboy (VBoolean false)].

(** A grant followed by a denial. *)
Definition grantThenDeny : Policy :=
  [cowboy (VBoolean true); cowboy (VBoolean false)].

(** A strategy function that answers [false], followed by a denial. *)
Definition refuse : Value Securable unit := VFunction (fun _ _ _ => VBoolean false).

Definition refuseThenDeny : Policy := [cowboy refuse; cowboy (VBoolean false)].

(** The policy of 'should permit a known role & not permit unknown role'. *)
Definition managerOnly : Policy :=
  [ {| roles := Some (exactly "Manager");
       strategy := VBoolean true;
       fields := {| classes := anything; methods := anything |} |} ].

(** The entry of 'should permit any role when roles omitted in policy'. *)
Definition rolesOmitted : MethodEntry unit :=
  {| roles := None;
     strategy := VBoolean true;
     fields := {| classes := exactly "Foo"; methods := exactly "bar" |} |}.

(** An entry whose strategy is a string, as the note of
    default-method-policy.js mentions. *)
Definition named : MethodEntry unit := cowboy (VString (str "./strategy")).

Definition namedThenDeny : Policy := [named; cowboy (VBoolean false)].

End Examples.

(** ** Vocabulary for statements about requests *)

Module Requests.
Import Js Rbac.

(** The role names a role argument holds, its arrays flattened, in the
    order the interrogations visit them. *)
Fixpoint names (role : RoleArg) : list JsString :=
  match role with
  | Role name => [name]
  | Roles members => flat_map names members
  end.

Section Scans.

Context {Fields Securable Data : Type}.
Context {filter : SecurableFilter Fields Securable Data}.

(** The filter of [_findEntries], for one entry. *)
Definition pertains (name : JsString) (securable : Securable)
  (entry : Entry Fields Securable Data) : bool :=
  _filterRoles entry name && _filterSecurable entry securable.

(** The deny-polarity scan of the entries found for one role name. *)
Definition denied (this : Repository Fields Securable Data)
  (securable : Securable) (data : Data) (name : JsString) : bool :=
  _explicitlyDenies (_findEntries this name securable) name securable data.

(** The grant-polarity scan of the entries found for one role name. *)
Definition granted (this : Repository Fields Securable Data)
  (securable : Securable) (data : Data) (name : JsString) : bool :=
  _permits (_findEntries this name securable) name securable data.

(** No entry of the list has a function for its strategy. *)
Definition functionFree (entries : list (Entry Fields Securable Data)) : Prop :=
  Forall (fun entry => typeof (strategy entry) <> TFunction) entries.

End Scans.

End Requests.

(** ** Further policies of the unit tests *)

Module Policies.
Import Js Rbac Method.

(** The policy of 'should work when a role among many is denied'. *)
Definition tellerAndDummy : Examples.Policy :=
  [ {| roles := Some (exactly "Dummy");
       strategy := VBoolean false;
       fields := {| classes := anything; methods := anything |} |};
    {| roles := Some (exactly "Teller");
       strategy := VBoolean true;
       fields := {| classes := exactly "Foo"; methods := exactly "bar" |} |} ].

(** The same entries, the other way round. *)
Definition dummyAndTeller : Examples.Policy := rev tellerAndDummy.

(** The entry of 'should deny all roles when strategy omitted in policy'. *)
Definition omitted : MethodEntry unit :=
  {| roles := None;
     strategy := VUndefined;
     fields := {| classes := exactly "Foo"; methods := exactly "bar" |} |}.

Definition strategyOmitted : Examples.Policy := [omitted].

(** The roles of the request of that test, and the same roles in another
    order, one of them twice and one in an array of its own. *)
Definition tellerDummy : RoleArg :=
  Roles [Role (str "Teller"); Role (str "Dummy")].

Definition dummyTellerTeller : RoleArg :=
  Roles [Roles [Role (str "Dummy")]; Role (str "Teller"); Role (str "Teller")].

(** A strategy function that grants managers only. *)
Definition managersOnly : Value Securable unit :=
  VFunction (fun role _ _ =>
    VBoolean (if list_eq_dec N.eq_dec role (str "Manager") then true else false)).

(** A single grant. *)
Definition grantOnly : Examples.Policy := [Examples.cowboy (VBoolean true)].

(** A policy of one strategy function, for every role. *)
Definition custom : Examples.Policy :=
  [ {| roles := Some anything;
       strategy := managersOnly;
       fields := {| classes := exactly "Foo"; methods := exactly "bar" |} |} ].

End Policies.

(** ** Properties of the JavaScript fragment *)

Module JsFacts.
Import Js.

Lemma includes_true_existsb (A : Type) (f : A -> bool) (l : list A) :
  includes (map f l) true = existsb f l.
Proof.
  induction l as [|a l IH]; simpl; [reflexivity|].
  rewrite IH. destruct (f a); reflexivity.
Qed.

Lemma includes_true_iff (A : Type) (f : A -> bool) (l : list A) :
  includes (map f l) true = true <-> exists a, In a l /\ f a = true.
Proof.
  rewrite includes_true_existsb. apply existsb_exists.
Qed.

(** [.*$] consumes exactly the strings without a line terminator. *)
Lemma dots_to_the_end (s : JsString) :
  forall fuel atStart, List.length s <= fuel ->
  repeatMatcher (compile Dot) fuel atStart s
    (fun atStart' s' => compile Eol atStart' s' (fun _ _ => true))
  = singleLine s.
Proof.
  induction s as [|c s IH]; intros fuel atStart Hfuel.
  - destruct fuel; reflexivity.
  - destruct fuel as [|fuel]; simpl in Hfuel; [lia|].
    cbn [repeatMatcher compile orb singleLine forallb].
    replace (List.length s <? List.length (c :: s)) with true
      by (symmetry; apply Nat.ltb_lt; simpl; lia).
    f_equal. apply (IH fuel false). lia.
Qed.

(** A pattern that starts with [^] matches nowhere but at the start. *)
Lemma search_anchored (r : RegExp) (s : JsString) :
  search (Seq Bol r) false s = false.
Proof.
  induction s as [|c s IH]; simpl; [reflexivity | exact IH].
Qed.

Lemma test_anchored (r : RegExp) (s : JsString) :
  test (Seq Bol r) s = compile r true s (fun _ _ => true).
Proof.
  unfold test. destruct s as [|c s]; cbn [search compile andb].
  - apply orb_false_r.
  - rewrite search_anchored. apply orb_false_r.
Qed.

(** [/^.*$/] *)
Lemma test_star_line (s : JsString) :
  test (Seq Bol (Seq (Star Dot) Eol)) s = singleLine s.
Proof.
  rewrite test_anchored. cbn [compile].
  apply dots_to_the_end. lia.
Qed.

(** [/^.+$/] *)
Lemma test_plus_line (s : JsString) :
  test (Seq Bol (Seq (Plus Dot) Eol)) s = nonEmpty s && singleLine s.
Proof.
  rewrite test_anchored. destruct s as [|c s]; cbn [compile]; [reflexivity|].
  rewrite dots_to_the_end by lia. reflexivity.
Qed.

End JsFacts.

(** ** Properties of the interrogations *)

Module RbacFacts.
Import Js Rbac JsFacts.

(** Induction over a role argument and the members of its arrays. *)
Lemma RoleArg_induction (P : RoleArg -> Prop) :
  (forall name, P (Role name)) ->
  (forall members, Forall P members -> P (Roles members)) ->
  forall role, P role.
Proof.
  intros Hname Hmembers. fix IH 1. intros [name | members].
  - apply Hname.
  - apply Hmembers. induction members as [|m members IHm]; constructor.
    + apply IH.
    + exact IHm.
Qed.

Section Interrogation.

Context {Fields Securable Data : Type}.
Context {filter : SecurableFilter Fields Securable Data}.

Implicit Types this : Repository Fields Securable Data.
Implicit Types entry it : Entry Fields Securable Data.
Implicit Types entries pre post : list (Entry Fields Securable Data).
Implicit Types role : JsString.
Implicit Types securable : Securable.
Implicit Types data : Data.

(** The entry filter finds nothing when no entry matches. *)
Lemma _findEntries_none this role securable :
  (forall entry, In entry (_policy this) ->
     _filterRoles entry role && _filterSecurable entry securable = false) ->
  _findEntries this role securable = [].
Proof.
  unfold _findEntries. induction (_policy this) as [|e l IH]; intros H; simpl.
  - reflexivity.
  - rewrite (H e (or_introl eq_refl)). apply IH.
    intros entry Hin. apply H. right. exact Hin.
Qed.

(** The entry filter keeps every entry when all of them match. *)
Lemma _findEntries_all this role securable :
  Forall (fun entry => _filterRoles entry role = true
                       /\ _filterSecurable entry securable = true)
         (_policy this) ->
  _findEntries this role securable = _policy this.
Proof.
  unfold _findEntries. induction 1 as [|e l [Hr Hs] _ IH]; simpl.
  - reflexivity.
  - rewrite Hr, Hs, IH. reflexivity.
Qed.

(** An entry whose strategy is neither a boolean nor a function leaves the
    loop of [_interrogate] in its next iteration. *)
Lemma _interrogate_inert it entries role securable data permit :
  typeof (strategy it) <> TBoolean ->
  typeof (strategy it) <> TFunction ->
  _interrogate (it :: entries) role securable data permit
  = _interrogate entries role securable data permit.
Proof.
  intros Hb Hf. simpl. unfold isBoolean.
  destruct (strategy it); simpl in *; congruence.
Qed.

(** The loop is the same on the entries before the one it stops at. *)
Lemma _interrogate_congruence pre entries entries' role securable data permit :
  _interrogate entries role securable data permit
  = _interrogate entries' role securable data permit ->
  _interrogate (pre ++ entries) role securable data permit
  = _interrogate (pre ++ entries') role securable data permit.
Proof.
  intros H. induction pre as [|e pre IH]; simpl; [exact H|].
  rewrite IH. reflexivity.
Qed.

(** Under deny polarity the loop passes over the entries that are neither a
    denial nor a function. *)
Lemma _interrogate_deny_passes pre entries role securable data :
  (forall entry, In entry pre ->
     typeof (strategy entry) <> TFunction
     /\ strategy entry <> VBoolean false) ->
  _interrogate (pre ++ entries) role securable data false
  = _interrogate entries role securable data false.
Proof.
  induction pre as [|e pre IH]; intros H; simpl; [reflexivity|].
  destruct (H e (or_introl eq_refl)) as [Hf Hd].
  unfold isBoolean.
  destruct (strategy e) as [| |[|]| | | |f]; simpl in *; try congruence;
    apply IH; intros entry Hin; apply H; right; exact Hin.
Qed.

(** What the default pattern of [_scrubPolicy] lets through. *)
Lemma _filterRoles_allRoles entry role :
  roles entry = Some allRoles ->
  _filterRoles entry role = nonEmpty role && singleLine role.
Proof.
  intros H. unfold _filterRoles. rewrite H. apply test_plus_line.
Qed.

End Interrogation.

End RbacFacts.

(** ** Properties of the default method policy *)

Module MethodFacts.
Import Js Rbac Method JsFacts.

Section Default.

Variable Data : Type.

Implicit Types this : Repository MethodFields Securable Data.

(** The one entry of the default policy is found for the names that fit
    on a line. *)
Lemma _findEntries_default this role securable :
  _policy this = DEFAULT_POLICY Data ->
  _findEntries this role securable
  = if singleLine role
       && singleLine (toString (optional class securable))
       && singleLine (toString (optional method securable))
    then DEFAULT_POLICY Data
    else [].
Proof.
  intros H. unfold _findEntries. rewrite H.
  cbn [DEFAULT_POLICY List.filter].
  unfold _filterRoles, Rbac._filterSecurable, Method._filterSecurable.
  cbn [roles fields classes methods]. unfold anything.
  rewrite !test_star_line, andb_assoc.
  reflexivity.
Qed.

Lemma constructor_default :
  Method.constructor (Data := Data) NoPolicy
  = inr {| _policy := DEFAULT_POLICY Data |}.
Proof.
  reflexivity.
Qed.

End Default.

End MethodFacts.

(** ** The specification, claim by claim *)

Module Spec.
Import Js Rbac JsFacts RbacFacts.

Section Abstract.

Context {Fields Securable Data : Type}.
Context {filter : SecurableFilter Fields Securable Data}.

Implicit Types this : Repository Fields Securable Data.
Implicit Types entry : Entry Fields Securable Data.
Implicit Types entries pre post policy : list (Entry Fields Securable Data).
Implicit Types name : JsString.
Implicit Types role : RoleArg.
Implicit Types securable : Securable.
Implicit Types data : Data.

(** C1, as amended. For a single role name, [permits] is the conjunction of
    two scans over the entries filtered for that role and securable: the
    deny-polarity scan must answer false and the grant-polarity scan must
    answer true. *)
Theorem permits_single_role this name securable data :
  permits this (Role name) securable data
  = negb (_interrogate (_findEntries this name securable) name securable data false)
    && _interrogate (_findEntries this name securable) name securable data true
  /\ (permits this (Role name) securable data = true <->
      _interrogate (_findEntries this name securable) name securable data false = false
      /\ _interrogate (_findEntries this name securable) name securable data true = true).
Proof.
  split; [reflexivity|].
  cbn [permits]. unfold _explicitlyDenies, _permits.
  rewrite andb_true_iff, negb_true_iff. tauto.
Qed.

(** C2, as amended. When the policy of the repository is three entries with
    strategies [true], [true] and [false] in that order, all of them matching
    the role name and the securable, [explicitlyDenies] answers true and
    [permits] answers false. *)
Theorem grant_grant_deny this name securable data :
  map (@strategy _ _ _) (_policy this)
    = [VBoolean true; VBoolean true; VBoolean false] ->
  Forall (fun entry => _filterRoles entry name = true
                       /\ _filterSecurable entry securable = true)
         (_policy this) ->
  explicitlyDenies this (Role name) securable data = true
  /\ permits this (Role name) securable data = false.
Proof.
  intros Hstrategies Hmatch.
  cbn [explicitlyDenies permits].
  rewrite (_findEntries_all _ _ _ Hmatch).
  destruct (_policy this) as [|e1 [|e2 [|e3 [|e4 l]]]]; try discriminate.
  injection Hstrategies as H1 H2 H3.
  unfold _explicitlyDenies, _permits. simpl.
  rewrite H1, H2, H3. split; reflexivity.
Qed.

(** C3. Under deny polarity, when the filtered entries begin with entries
    that are neither functions nor denials, followed by an entry whose
    strategy function answers a falsy value, [explicitlyDenies] answers false
    whatever entries come later, a denial included. *)
Theorem deny_scan_stops_at_refusing_predicate
  this name securable data pre (it : Entry Fields Securable Data) post f :
  _findEntries this name securable = pre ++ it :: post ->
  (forall entry, In entry pre ->
     typeof (strategy entry) <> TFunction
     /\ strategy entry <> VBoolean false) ->
  strategy it = VFunction f ->
  truthy (f name securable data) = false ->
  explicitlyDenies this (Role name) securable data = false.
Proof.
  intros Hfound Hpre Hf Hfalsy.
  cbn [explicitlyDenies]. unfold _explicitlyDenies.
  rewrite Hfound, (_interrogate_deny_passes _ _ _ _ _ Hpre).
  simpl. rewrite Hf. simpl. rewrite Hfalsy. reflexivity.
Qed.

(** C4. For an array of roles, [permits] answers true if and only if no
    member is explicitly denied and some member is permitted, and
    [explicitlyDenies] answers true if and only if some member is explicitly
    denied; each member is interrogated on its own against the same
    repository. *)
Theorem role_array_aggregation this members securable data :
  (permits this (Roles members) securable data = true <->
     (forall role, In role members ->
        explicitlyDenies this role securable data = false)
     /\ (exists role, In role members
           /\ permits this role securable data = true))
  /\ (explicitlyDenies this (Roles members) securable data = true <->
        exists role, In role members
          /\ explicitlyDenies this role securable data = true).
Proof.
  cbn [permits explicitlyDenies].
  rewrite andb_true_iff, negb_true_iff, !includes_true_iff.
  rewrite includes_true_existsb.
  split; [|tauto].
  split; intros [Hnone Hsome]; (split; [|exact Hsome]).
  - intros role Hin.
    destruct (explicitlyDenies this role securable data) eqn:Hd; [|reflexivity].
    assert (existsb (fun it => explicitlyDenies this it securable data) members
            = true) as Hex by (apply existsb_exists; eauto).
    congruence.
  - destruct (existsb _ members) eqn:Hex; [|reflexivity].
    apply existsb_exists in Hex. destruct Hex as [role [Hin Hd]].
    rewrite (Hnone role Hin) in Hd. discriminate.
Qed.

(** C5. For a single role name, when no entry of the policy matches both
    the role, through its role pattern, and the securable, through the
    securable filter, [permits] and [explicitlyDenies] both answer false. *)
Theorem no_matching_entry this name securable data :
  (forall entry, In entry (_policy this) ->
     _filterRoles entry name && _filterSecurable entry securable = false) ->
  permits this (Role name) securable data = false
  /\ explicitlyDenies this (Role name) securable data = false.
Proof.
  intros Hnone. cbn [permits explicitlyDenies].
  rewrite (_findEntries_none _ _ _ Hnone). split; reflexivity.
Qed.

(** C6, as amended. An entry whose role pattern is absent is normalized to
    an entry, at the same place of the policy, whose pattern is [/^.+$/]:
    the entry filter treats the normalized entry as matching every role name
    that is not empty and holds no line terminator. *)
Theorem absent_roles_pattern policy i entry :
  nth_error policy i = Some entry ->
  roles entry = None ->
  exists entry',
    nth_error (_scrubPolicy policy) i = Some entry'
    /\ roles entry' = Some allRoles
    /\ forall name,
         nonEmpty name = true -> singleLine name = true ->
         _filterRoles entry' name = true.
Proof.
  intros Hnth Hroles. unfold _scrubPolicy.
  eexists. split; [|split].
  - rewrite nth_error_map, Hnth. reflexivity.
  - simpl. rewrite Hroles. reflexivity.
  - intros name Hne Hline.
    rewrite _filterRoles_allRoles by (simpl; rewrite Hroles; reflexivity).
    rewrite Hne, Hline. reflexivity.
Qed.

(** C8. [permits] and [explicitlyDenies] never both answer true, for a role
    name and for an array of roles alike: whenever [explicitlyDenies] answers
    true, [permits] answers false. *)
Theorem permits_excludes_explicit_denial this role securable data :
  ~ (permits this role securable data = true
     /\ explicitlyDenies this role securable data = true)
  /\ (explicitlyDenies this role securable data = true ->
      permits this role securable data = false).
Proof.
  assert (explicitlyDenies this role securable data = true ->
          permits this role securable data = false) as H.
  { destruct role as [name | members]; cbn [permits explicitlyDenies];
      intros ->; reflexivity. }
  split; [|exact H].
  intros [Hp Hd]. rewrite (H Hd) in Hp. discriminate.
Qed.

(** C9. For the empty array of roles, [permits] and [explicitlyDenies] both
    answer false. *)
Theorem empty_role_array this securable data :
  permits this (Roles []) securable data = false
  /\ explicitlyDenies this (Roles []) securable data = false.
Proof.
  split; reflexivity.
Qed.

(** C10. An entry whose normalized strategy is neither a boolean nor a
    function is skipped by the scan under both polarities, wherever it
    stands among the entries; and a repository answers every interrogation
    as the repository without that entry does. *)
Theorem other_strategy_is_inert (it : Entry Fields Securable Data) pre post :
  typeof (strategy it) <> TBoolean ->
  typeof (strategy it) <> TFunction ->
  (forall name securable data permit,
     _interrogate (pre ++ it :: post) name securable data permit
     = _interrogate (pre ++ post) name securable data permit)
  /\ (forall this this',
        _policy this = pre ++ it :: post ->
        _policy this' = pre ++ post ->
        forall role securable data,
          permits this role securable data = permits this' role securable data
          /\ explicitlyDenies this role securable data
             = explicitlyDenies this' role securable data).
Proof.
  intros Hb Hf.
  assert (forall entries entries' name securable data permit,
            _interrogate (entries ++ it :: entries') name securable data permit
            = _interrogate (entries ++ entries') name securable data permit)
    as Hscan.
  { intros. apply _interrogate_congruence, _interrogate_inert; assumption. }
  split; [apply Hscan|].
  intros this this' Hthis Hthis' role securable data.
  assert (forall name permit,
            _interrogate (_findEntries this name securable) name securable data permit
            = _interrogate (_findEntries this' name securable) name securable data permit)
    as Hfound.
  { intros name permit. unfold _findEntries. rewrite Hthis, Hthis'.
    rewrite !filter_app. simpl.
    destruct (_filterRoles it name && _filterSecurable it securable);
      [apply Hscan | reflexivity]. }
  induction role as [name | members IH] using RoleArg_induction.
  - cbn [permits explicitlyDenies]. unfold _explicitlyDenies, _permits.
    rewrite !Hfound. split; reflexivity.
  - cbn [permits explicitlyDenies].
    assert (map (fun it => explicitlyDenies this it securable data) members
            = map (fun it => explicitlyDenies this' it securable data) members)
      as Hd by (apply map_ext_Forall; revert IH; apply Forall_impl; tauto).
    assert (map (fun it => permits this it securable data) members
            = map (fun it => permits this' it securable data) members)
      as Hp by (apply map_ext_Forall; revert IH; apply Forall_impl; tauto).
    rewrite Hd, Hp. split; reflexivity.
Qed.

End Abstract.

(** *** MethodAccessControlRepository *)

Import Method MethodFacts Examples.

(** C7, as amended. Constructing a MethodAccessControlRepository without a
    policy succeeds with the default policy of one entry. Against it
    [explicitlyDenies] answers false for every role name and securable, and
    [permits] answers true for every role name and securable whose role
    name, class name and method name hold no line terminator. *)
Theorem default_policy_permits (Data : Type) :
  exists this,
    Method.constructor (Data := Data) NoPolicy = inr this
    /\ _policy this = DEFAULT_POLICY Data
    /\ List.length (_policy this) = 1
    /\ forall name securable data,
         explicitlyDenies this (Role name) securable data = false
         /\ (singleLine name = true ->
             singleLine (toString (optional class securable)) = true ->
             singleLine (toString (optional method securable)) = true ->
             permits this (Role name) securable data = true).
Proof.
  eexists. split; [apply constructor_default|].
  split; [reflexivity|]. split; [reflexivity|].
  intros name securable data.
  cbn [permits explicitlyDenies].
  rewrite _findEntries_default by reflexivity.
  split.
  - destruct (_ && _); reflexivity.
  - intros -> -> ->. reflexivity.
Qed.

(** C1: with a grant followed by a denial the grant-polarity scan answers
    true and [permits] answers false. *)
Lemma grant_scan_does_not_decide_alone :
  exists this : Repository MethodFields Securable unit,
    Method.constructor (PolicyArray grantThenDeny) = inr this
    /\ _interrogate (_findEntries this (str "Cowboy") fooBar)
         (str "Cowboy") fooBar tt true = true
    /\ permits this Cowboy fooBar tt = false.
Proof.
  eexists. repeat split.
Qed.

(** C2: the policy of 'should deny with a single denial' is explicitly
    denied and not permitted. *)
Lemma single_denial_is_not_permitted :
  exists this : Repository MethodFields Securable unit,
    Method.constructor (PolicyArray singleDenial) = inr this
    /\ map (@strategy _ _ _) (_policy this)
       = [VBoolean true; VBoolean true; VBoolean false]
    /\ _findEntries this (str "Cowboy") fooBar = _policy this
    /\ explicitlyDenies this Cowboy fooBar tt = true
    /\ permits this Cowboy fooBar tt = false.
Proof.
  eexists. repeat split.
Qed.

(** C2, as amended, on the policy of 'should deny with a single denial'. *)
Lemma grant_grant_deny_witness :
  exists this : Repository MethodFields Securable unit,
    Method.constructor (PolicyArray singleDenial) = inr this
    /\ explicitlyDenies this Cowboy fooBar tt = true
    /\ permits this Cowboy fooBar tt = false.
Proof.
  eexists. split; [reflexivity|].
  apply grant_grant_deny; [reflexivity | repeat constructor].
Defined.

(** C3 on a policy whose refusing strategy function is followed by a
    denial for the same role and securable: the denial is never reached. *)
Lemma deny_scan_stops_witness :
  exists this : Repository MethodFields Securable unit,
    Method.constructor (PolicyArray refuseThenDeny) = inr this
    /\ map (@strategy _ _ _) (_findEntries this (str "Cowboy") fooBar)
       = [refuse; VBoolean false]
    /\ explicitlyDenies this Cowboy fooBar tt = false.
Proof.
  eexists. split; [reflexivity|]. split; [reflexivity|].
  eapply deny_scan_stops_at_refusing_predicate with (pre := []).
  - reflexivity.
  - intros entry [].
  - reflexivity.
  - reflexivity.
Defined.

(** C5 on the policy of 'should permit a known role & not permit unknown
    role', for a role the only entry does not match. *)
Lemma no_matching_entry_witness :
  exists this : Repository MethodFields Securable unit,
    Method.constructor (PolicyArray managerOnly) = inr this
    /\ permits this (Role (str "Teller")) fooBar tt = false
    /\ explicitlyDenies this (Role (str "Teller")) fooBar tt = false.
Proof.
  eexists. split; [reflexivity|].
  apply no_matching_entry.
  intros entry [<- | []]. reflexivity.
Defined.

(** C6: the pattern of an entry without [roles] matches neither the empty
    role name nor a name that holds a line feed. *)
Lemma absent_roles_reject_the_empty_name :
  exists entry' : MethodEntry unit,
    roles rolesOmitted = None
    /\ _scrubPolicy [rolesOmitted] = [entry']
    /\ _filterRoles entry' [] = false
    /\ _filterRoles entry' (str "a" ++ [10%N] ++ str "b") = false.
Proof.
  eexists. repeat split.
Qed.

(** C6, as amended, on the entry of 'should permit any role when roles
    omitted in policy'. *)
Lemma absent_roles_pattern_witness :
  exists entry' : MethodEntry unit,
    nth_error (_scrubPolicy [rolesOmitted]) 0 = Some entry'
    /\ roles entry' = Some allRoles
    /\ _filterRoles entry' (str "Teller") = true.
Proof.
  destruct (absent_roles_pattern [rolesOmitted] 0 (entry := rolesOmitted)
              eq_refl eq_refl) as [entry' [Hnth [Hroles Hmatch]]].
  exists entry'. split; [exact Hnth|]. split; [exact Hroles|].
  apply Hmatch; reflexivity.
Defined.

(** C7: against the default policy a role name that holds a line feed is
    not permitted. *)
Lemma default_policy_refuses_line_feed :
  exists this : Repository MethodFields Securable unit,
    Method.constructor NoPolicy = inr this
    /\ permits this (Role [10%N]) fooBar tt = false.
Proof.
  eexists. repeat split.
Qed.

(** C7, as amended, for the request of 'should permit any role by
    default'. *)
Lemma default_policy_witness :
  exists this : Repository MethodFields Securable unit,
    Method.constructor NoPolicy = inr this
    /\ explicitlyDenies this Cowboy fooBar tt = false
    /\ permits this Cowboy fooBar tt = true.
Proof.
  destruct (default_policy_permits unit) as [this [Hnew [_ [_ H]]]].
  exists this. split; [exact Hnew|].
  destruct (H (str "Cowboy") fooBar tt) as [Hd Hp].
  split; [exact Hd | apply Hp; reflexivity].
Defined.

(** C10 on a policy whose first entry has a string for its strategy: the
    repository answers as the one without that entry. *)
Lemma other_strategy_witness :
  exists this this' : Repository MethodFields Securable unit,
    Method.constructor (PolicyArray namedThenDeny) = inr this
    /\ Method.constructor (PolicyArray [cowboy (VBoolean false)]) = inr this'
    /\ map (fun entry => typeof (strategy entry)) (_policy this)
       = [TString; TBoolean]
    /\ permits this Cowboy fooBar tt = permits this' Cowboy fooBar tt
    /\ explicitlyDenies this Cowboy fooBar tt
       = explicitlyDenies this' Cowboy fooBar tt.
Proof.
  do 2 eexists. do 3 (split; [reflexivity|]).
  eapply (proj2 (other_strategy_is_inert named [] [cowboy (VBoolean false)]
                  ltac:(discriminate) ltac:(discriminate)));
    reflexivity.
Defined.

End Spec.

(** ** Properties of requests, role by role *)

Module RequestFacts.
Import Js Rbac JsFacts RbacFacts Requests.

Lemma existsb_flat_map (A B : Type) (f : B -> bool) (g : A -> list B) (l : list A) :
  existsb f (flat_map g l) = existsb (fun x => existsb f (g x)) l.
Proof.
  induction l as [|a l IH]; simpl; [reflexivity|].
  rewrite existsb_app, IH. reflexivity.
Qed.

Lemma existsb_same_members (A : Type) (f : A -> bool) (l l' : list A) :
  (forall x, In x l <-> In x l') -> existsb f l = existsb f l'.
Proof.
  intros H. apply eq_true_iff_eq. rewrite !existsb_exists.
  split; intros [x [Hin Hx]]; exists x; (split; [apply H; exact Hin | exact Hx]).
Qed.

Lemma existsb_guarded (A : Type) (d g : A -> bool) (l : list A) :
  existsb d l = false ->
  existsb (fun x => negb (d x) && g x) l = existsb g l.
Proof.
  induction l as [|a l IH]; simpl; [reflexivity|].
  intros H. apply orb_false_elim in H. destruct H as [Ha Hl].
  rewrite Ha, (IH Hl). reflexivity.
Qed.

Lemma existsb_pointwise (A : Type) (f g : A -> bool) (l : list A) :
  Forall (fun x => f x = g x) l -> existsb f l = existsb g l.
Proof.
  induction 1 as [|a l Ha _ IH]; simpl; [reflexivity|].
  rewrite Ha, IH. reflexivity.
Qed.

Section Scans.

Context {Fields Securable Data : Type}.
Context {filter : SecurableFilter Fields Securable Data}.

Implicit Types this : Repository Fields Securable Data.
Implicit Types entry : Entry Fields Securable Data.
Implicit Types entries pre post : list (Entry Fields Securable Data).
Implicit Types name : JsString.
Implicit Types role : RoleArg.
Implicit Types securable : Securable.
Implicit Types data : Data.

(** An interrogation with arrays of roles is the disjunction of the deny
    scans of the names it holds. *)
Lemma explicitlyDenies_names this role securable data :
  explicitlyDenies this role securable data
  = existsb (denied this securable data) (names role).
Proof.
  induction role as [name | members IH] using RoleArg_induction.
  - simpl. rewrite orb_false_r. reflexivity.
  - cbn [explicitlyDenies names].
    rewrite includes_true_existsb, existsb_flat_map.
    apply existsb_pointwise. exact IH.
Qed.

Lemma permits_names this role securable data :
  permits this role securable data
  = negb (existsb (denied this securable data) (names role))
    && existsb (granted this securable data) (names role).
Proof.
  induction role as [name | members IH] using RoleArg_induction.
  - simpl. rewrite !orb_false_r. reflexivity.
  - cbn [permits names].
    rewrite !includes_true_existsb, !existsb_flat_map.
    rewrite (existsb_pointwise
               (fun it => explicitlyDenies this it securable data)
               (fun it => existsb (denied this securable data) (names it)))
      by (apply Forall_forall; intros; apply explicitlyDenies_names).
    rewrite (existsb_pointwise _ _ IH).
    destruct (existsb (fun it => existsb (denied this securable data) (names it))
                members) eqn:Hd; [reflexivity|].
    simpl. apply existsb_guarded. exact Hd.
Qed.

(** The entries found are entries of the policy that pertain to the
    request. *)
Lemma _findEntries_In this name securable entry :
  In entry (_findEntries this name securable)
  <-> In entry (_policy this) /\ pertains name securable entry = true.
Proof.
  unfold _findEntries. apply filter_In.
Qed.

(** The deny scan answers true only at a denial. *)
Lemma deny_scan_true entries name securable data :
  _interrogate entries name securable data false = true ->
  exists entry, In entry entries /\ strategy entry = VBoolean false.
Proof.
  induction entries as [|e entries IH]; simpl; [discriminate|].
  unfold isBoolean.
  destruct (strategy e) as [| |[|]| | | |f] eqn:He; simpl; intros H;
    try (destruct (IH H) as [entry [Hin Hs]]; exists entry; split;
         [right; exact Hin | exact Hs]).
  - exists e. split; [left; reflexivity | exact He].
  - destruct (truthy (f name securable data)); simpl in H; [|discriminate].
    destruct (IH H) as [entry [Hin Hs]]. exists entry. split;
      [right; exact Hin | exact Hs].
Qed.

(** The grant scan answers true only at a grant, or at a strategy function
    that answers a truthy value. *)
Lemma grant_scan_true entries name securable data :
  _interrogate entries name securable data true = true ->
  exists entry,
    In entry entries
    /\ (strategy entry = VBoolean true
        \/ exists f, strategy entry = VFunction f
                     /\ truthy (f name securable data) = true).
Proof.
  induction entries as [|e entries IH]; simpl; [discriminate|].
  unfold isBoolean.
  destruct (strategy e) as [| |[|]| | | |f] eqn:He; simpl; intros H;
    try (destruct (IH H) as [entry [Hin Hs]]; exists entry; split;
         [right; exact Hin | exact Hs]).
  - exists e. split; [left; reflexivity | left; exact He].
  - destruct (truthy (f name securable data)) eqn:Hf; simpl in H.
    + exists e. split; [left; reflexivity | right; exists f; split; assumption].
    + destruct (IH H) as [entry [Hin Hs]]. exists entry. split;
        [right; exact Hin | exact Hs].
Qed.

(** Without strategy functions a scan looks for a boolean of its polarity. *)
Lemma scan_function_free entries name securable data permit :
  functionFree entries ->
  _interrogate entries name securable data permit
  = existsb (fun entry => isBoolean (strategy entry) permit) entries.
Proof.
  induction 1 as [|e entries He _ IH]; simpl; [reflexivity|].
  destruct (isBoolean (strategy e) permit); [reflexivity|].
  rewrite <- IH. destruct (strategy e); simpl in *; congruence.
Qed.

Lemma functionFree_found this name securable :
  functionFree (_policy this) ->
  functionFree (_findEntries this name securable).
Proof.
  unfold functionFree, _findEntries. rewrite !Forall_forall.
  intros H entry Hin. apply filter_In in Hin. apply H, Hin.
Qed.

(** A boolean of the other polarity leaves the loop in its next iteration. *)
Lemma _interrogate_other_polarity entry entries name securable data permit :
  strategy entry = VBoolean (negb permit) ->
  _interrogate (entry :: entries) name securable data permit
  = _interrogate entries name securable data permit.
Proof.
  intros H. simpl. unfold isBoolean. rewrite H.
  destruct permit; reflexivity.
Qed.

(** Under deny polarity, a denial that no strategy function precedes is
    reached. *)
Lemma deny_scan_reaches pre entry post name securable data :
  functionFree pre ->
  strategy entry = VBoolean false ->
  _interrogate (pre ++ entry :: post) name securable data false = true.
Proof.
  intros Hpre Hdeny. induction Hpre as [|e pre He _ IH]; simpl.
  - unfold isBoolean. rewrite Hdeny. reflexivity.
  - destruct (isBoolean (strategy e) false); [reflexivity|].
    destruct (strategy e); simpl in *; congruence.
Qed.

End Scans.

End RequestFacts.

(** ** Further properties of the repositories *)

Module Extra.
Import Js Rbac JsFacts RbacFacts Requests RequestFacts.

Section Abstract.

Context {Fields Securable Data : Type}.
Context {filter : SecurableFilter Fields Securable Data}.

Implicit Types this : Repository Fields Securable Data.
Implicit Types entry : Entry Fields Securable Data.
Implicit Types entries pre post policy : list (Entry Fields Securable Data).
Implicit Types name : JsString.
Implicit Types role : RoleArg.
Implicit Types securable : Securable.
Implicit Types data : Data.


(** X2. Normalization keeps the place of every entry and its other
    properties; it keeps a role pattern that is present, keeps a truthy
    strategy as it is, and replaces a falsy strategy (absent, [null], [0],
    the empty string, [false]) by [false]. *)
Theorem _scrubPolicy_entry policy i entry :
  nth_error policy i = Some entry ->
  exists entry',
    nth_error (_scrubPolicy policy) i = Some entry'
    /\ fields entry' = fields entry
    /\ (forall r, roles entry = Some r -> roles entry' = Some r)
    /\ (truthy (strategy entry) = true -> strategy entry' = strategy entry)
    /\ (truthy (strategy entry) = false -> strategy entry' = VBoolean false).
Proof.
  intros Hnth. unfold _scrubPolicy. rewrite nth_error_map, Hnth.
  eexists. split; [reflexivity|]. simpl. unfold or_else.
  repeat split.
  - intros r ->. reflexivity.
  - intros ->. reflexivity.
  - intros ->. reflexivity.
Qed.

(** X3. Normalizing a normalized policy changes nothing. *)
Theorem _scrubPolicy_idempotent policy :
  _scrubPolicy (_scrubPolicy policy) = _scrubPolicy policy.
Proof.
  unfold _scrubPolicy. rewrite map_map. apply map_ext. intros entry. simpl.
  f_equal. unfold or_else.
  destruct (truthy (strategy entry)) eqn:H; [rewrite H|]; reflexivity.
Qed.

(** X4. Every entry of a repository the constructor returns has a role
    pattern, and a strategy that is truthy or [false]: the first disjunct of
    [_filterRoles] never decides, and no strategy is [undefined]. *)
Theorem constructed_policy_is_normalized arg this :
  constructor arg = inr this ->
  Forall (fun entry =>
            (exists r, roles entry = Some r
                       /\ forall name, _filterRoles entry name = test r name)
            /\ (truthy (strategy entry) = true
                \/ strategy entry = VBoolean false))
         (_policy this).
Proof.
  destruct arg as [| |policy]; simpl; try discriminate.
  intros H. injection H as <-. simpl.
  unfold _scrubPolicy. apply Forall_forall. intros entry' Hin.
  apply in_map_iff in Hin. destruct Hin as [entry [<- _]].
  split.
  - eexists. split; reflexivity.
  - simpl. unfold or_else.
    destruct (truthy (strategy entry)) eqn:H; [left; exact H | right; reflexivity].
Qed.

(** X5. An interrogation of nested arrays of roles is the interrogation of
    the role names they hold: [explicitlyDenies] answers true when the deny
    scan does for some name, and [permits] when the deny scan does for no
    name and the grant scan does for some name. *)
Theorem role_arrays_flatten this role securable data :
  explicitlyDenies this role securable data
  = existsb (denied this securable data) (names role)
  /\ permits this role securable data
     = negb (existsb (denied this securable data) (names role))
       && existsb (granted this securable data) (names role).
Proof.
  split; [apply explicitlyDenies_names | apply permits_names].
Qed.

(** X6. The order of the roles of a request, their repetition and the
    nesting of their arrays do not matter: two role arguments that hold the
    same names get the same answers. *)
Theorem same_names_same_answers this role role' securable data :
  (forall name, In name (names role) <-> In name (names role')) ->
  permits this role securable data = permits this role' securable data
  /\ explicitlyDenies this role securable data
     = explicitlyDenies this role' securable data.
Proof.
  intros H. rewrite !permits_names, !explicitlyDenies_names.
  rewrite (existsb_same_members (denied this securable data) _ _ H).
  rewrite (existsb_same_members (granted this securable data) _ _ H).
  split; reflexivity.
Qed.

(** X7. A role argument in an array of its own is interrogated as the
    argument itself. *)
Theorem singleton_role_array this role securable data :
  permits this (Roles [role]) securable data = permits this role securable data
  /\ explicitlyDenies this (Roles [role]) securable data
     = explicitlyDenies this role securable data.
Proof.
  rewrite !permits_names, !explicitlyDenies_names.
  cbn [names flat_map]. rewrite app_nil_r. split; reflexivity.
Qed.

(** What the two scans of one role name amount to when an entry is put
    into the policy. *)
Lemma found_with_entry this this' pre post entry name securable :
  _policy this = pre ++ entry :: post ->
  _policy this' = pre ++ post ->
  exists found found',
    _findEntries this' name securable = found ++ found'
    /\ _findEntries this name securable
       = if pertains name securable entry
         then found ++ entry :: found'
         else found ++ found'.
Proof.
  intros H H'. unfold _findEntries. rewrite H, H', !filter_app.
  do 2 eexists. split; [reflexivity|]. simpl. unfold pertains.
  destruct (_filterRoles entry name && _filterSecurable entry securable);
    reflexivity.
Qed.

Lemma isBoolean_true (v : Value Securable Data) (b : bool) :
  isBoolean v b = true <-> v = VBoolean b.
Proof.
  unfold isBoolean. destruct v as [| |b'| | | |f]; simpl;
    try (split; [discriminate | congruence]).
  rewrite eqb_true_iff. split; congruence.
Qed.

(** Under grant polarity no entry ends the scan with false, so a further
    entry takes no grant away. *)
Lemma grant_scan_insert pre entry post name securable data :
  _interrogate (pre ++ post) name securable data true = true ->
  _interrogate (pre ++ entry :: post) name securable data true = true.
Proof.
  induction pre as [|e pre IH]; simpl.
  - intros H. destruct (isBoolean (strategy entry) true); [reflexivity|].
    destruct (strategy entry); try exact H.
    destruct (truthy _); [reflexivity | exact H].
  - destruct (isBoolean (strategy e) true); [reflexivity|].
    destruct (strategy e); try exact IH.
    destruct (truthy _); [reflexivity | exact IH].
Qed.

(** A further denial takes no explicit denial away. *)
Lemma deny_scan_insert pre entry post name securable data :
  strategy entry = VBoolean false ->
  _interrogate (pre ++ post) name securable data false = true ->
  _interrogate (pre ++ entry :: post) name securable data false = true.
Proof.
  intros Hdeny. induction pre as [|e pre IH]; simpl.
  - intros _. unfold isBoolean. rewrite Hdeny. reflexivity.
  - destruct (isBoolean (strategy e) false); [reflexivity|].
    destruct (strategy e); try exact IH.
    destruct (truthy _); [exact IH | discriminate].
Qed.

Lemma existsb_mono (A : Type) (f g : A -> bool) (l : list A) :
  (forall x, f x = true -> g x = true) ->
  existsb f l = true -> existsb g l = true.
Proof.
  intros H. rewrite !existsb_exists. intros [x [Hin Hx]].
  exists x. split; [exact Hin | apply H, Hx].
Qed.

Lemma existsb_none (A : Type) (f : A -> bool) (l : list A) :
  (forall x, In x l -> f x = false) -> existsb f l = false.
Proof.
  intros H. destruct (existsb f l) eqn:Hex; [|reflexivity].
  apply existsb_exists in Hex. destruct Hex as [x [Hin Hx]].
  rewrite (H x Hin) in Hx. discriminate.
Qed.

Lemma functionFree_scrubbed policy :
  functionFree policy -> functionFree (_scrubPolicy policy).
Proof.
  unfold functionFree, _scrubPolicy. rewrite Forall_map.
  apply Forall_impl. intros entry H. simpl. unfold or_else.
  destruct (truthy (strategy entry)); [exact H | discriminate].
Qed.

(** X8. [explicitlyDenies] answers true only when the policy holds a
    denial, an entry whose normalized strategy is [false], that pertains to
    one of the roles of the request and to its securable. *)
Theorem explicit_denial_has_a_denying_entry this role securable data :
  explicitlyDenies this role securable data = true ->
  exists name entry,
    In name (names role)
    /\ In entry (_policy this)
    /\ pertains name securable entry = true
    /\ strategy entry = VBoolean false.
Proof.
  rewrite explicitlyDenies_names, existsb_exists.
  intros [name [Hin Hdenied]].
  apply deny_scan_true in Hdenied. destruct Hdenied as [entry [Hfound Hs]].
  apply _findEntries_In in Hfound.
  exists name, entry. tauto.
Qed.

(** X9. [permits] answers true only when the policy holds an entry that
    pertains to one of the roles of the request and to its securable, and
    either is a grant or has a strategy function that answers a truthy
    value for that role. *)
Theorem permission_has_a_granting_entry this role securable data :
  permits this role securable data = true ->
  exists name entry,
    In name (names role)
    /\ In entry (_policy this)
    /\ pertains name securable entry = true
    /\ (strategy entry = VBoolean true
        \/ exists f, strategy entry = VFunction f
                     /\ truthy (f name securable data) = true).
Proof.
  rewrite permits_names, andb_true_iff, existsb_exists.
  intros [_ [name [Hin Hgranted]]].
  apply grant_scan_true in Hgranted. destruct Hgranted as [entry [Hfound Hs]].
  apply _findEntries_In in Hfound.
  exists name, entry. tauto.
Qed.

(** X10. In a policy without strategy functions a denial overrides
    wherever it stands: a role name is explicitly denied exactly when some
    pertaining entry is a denial, and permitted exactly when no pertaining
    entry is a denial and some pertaining entry is a grant. *)
Theorem function_free_policy this name securable data :
  functionFree (_policy this) ->
  (explicitlyDenies this (Role name) securable data = true <->
     exists entry, In entry (_policy this)
                   /\ pertains name securable entry = true
                   /\ strategy entry = VBoolean false)
  /\ (permits this (Role name) securable data = true <->
        (forall entry, In entry (_policy this) ->
                       pertains name securable entry = true ->
                       strategy entry <> VBoolean false)
        /\ exists entry, In entry (_policy this)
                         /\ pertains name securable entry = true
                         /\ strategy entry = VBoolean true).
Proof.
  intros Hfree.
  assert (forall permit,
            _interrogate (_findEntries this name securable) name securable data permit
            = true <->
            exists entry, In entry (_policy this)
                          /\ pertains name securable entry = true
                          /\ strategy entry = VBoolean permit) as Hscan.
  { intros permit.
    rewrite scan_function_free by (apply functionFree_found, Hfree).
    rewrite existsb_exists.
    split; intros [entry H]; exists entry;
      rewrite _findEntries_In, isBoolean_true in *; tauto. }
  cbn [permits explicitlyDenies]. unfold _explicitlyDenies, _permits.
  split; [apply Hscan|].
  rewrite andb_true_iff, negb_true_iff, Hscan.
  split; intros [Hnone Hsome]; (split; [|exact Hsome]).
  - intros entry Hin Hp Hs.
    assert (_interrogate (_findEntries this name securable) name securable data
              false = true) as H by (apply Hscan; eauto).
    congruence.
  - destruct (_interrogate _ name securable data false) eqn:H; [|reflexivity].
    apply Hscan in H. destruct H as [entry [Hin [Hp Hs]]].
    destruct (Hnone entry Hin Hp Hs).
Qed.

(** X11. Two policies without strategy functions that hold the same entries
    give the same answers, whatever the order of the entries and whatever
    the data of the request. *)
Theorem function_free_order_and_data this this' role securable data data' :
  functionFree (_policy this) ->
  functionFree (_policy this') ->
  (forall entry, In entry (_policy this) <-> In entry (_policy this')) ->
  permits this role securable data = permits this' role securable data'
  /\ explicitlyDenies this role securable data
     = explicitlyDenies this' role securable data'.
Proof.
  intros Hfree Hfree' Hsame.
  assert (forall name permit,
            _interrogate (_findEntries this name securable) name securable data permit
            = _interrogate (_findEntries this' name securable) name securable data'
                permit) as Hscan.
  { intros name permit.
    rewrite !scan_function_free by (apply functionFree_found; assumption).
    apply existsb_same_members. intros entry.
    rewrite !_findEntries_In, Hsame. reflexivity. }
  rewrite !permits_names, !explicitlyDenies_names.
  rewrite (existsb_pointwise (denied this securable data)
             (denied this' securable data'))
    by (apply Forall_forall; intros; apply Hscan).
  rewrite (existsb_pointwise (granted this securable data)
             (granted this' securable data'))
    by (apply Forall_forall; intros; apply Hscan).
  split; reflexivity.
Qed.

(** X12. A denial found for a role name, with no strategy function found
    before it, settles the request: [explicitlyDenies] answers true and
    [permits] false, whatever the other entries are. *)
Theorem denial_before_any_function this name securable data pre entry post :
  _findEntries this name securable = pre ++ entry :: post ->
  functionFree pre ->
  strategy entry = VBoolean false ->
  explicitlyDenies this (Role name) securable data = true
  /\ permits this (Role name) securable data = false.
Proof.
  intros Hfound Hpre Hdeny.
  cbn [permits explicitlyDenies]. unfold _explicitlyDenies.
  rewrite Hfound, (deny_scan_reaches _ _ _ _ _ Hpre Hdeny).
  split; reflexivity.
Qed.

(** X13. An entry written without a strategy, or with a falsy one, denies:
    when no strategy function stands before it in the policy, every request
    the normalized entry pertains to is explicitly denied and not
    permitted. *)
Theorem falsy_strategy_denies this pre entry post entry' name securable data :
  constructor (PolicyArray (pre ++ entry :: post)) = inr this ->
  functionFree pre ->
  truthy (strategy entry) = false ->
  _scrubPolicy [entry] = [entry'] ->
  pertains name securable entry' = true ->
  explicitlyDenies this (Role name) securable data = true
  /\ permits this (Role name) securable data = false.
Proof.
  intros Hnew Hpre Hfalsy Hscrub Hpertains.
  injection Hnew as <-. injection Hscrub as <-.
  cbn [permits explicitlyDenies]. unfold _explicitlyDenies, _findEntries.
  cbn [_policy]. unfold _scrubPolicy. rewrite map_app, filter_app.
  cbn [map List.filter]. unfold pertains in Hpertains. rewrite Hpertains.
  rewrite deny_scan_reaches; [split; reflexivity | |].
  - apply Forall_forall. intros e Hin. apply filter_In in Hin.
    destruct Hin as [Hin _]. revert e Hin. apply Forall_forall.
    apply (functionFree_scrubbed Hpre).
  - simpl. unfold or_else. rewrite Hfalsy. reflexivity.
Qed.

(** X14. Putting a grant into a policy, at any place, changes no answer of
    [explicitlyDenies] and takes no permission away. *)
Theorem adding_a_grant this this' pre entry post role securable data :
  strategy entry = VBoolean true ->
  _policy this = pre ++ entry :: post ->
  _policy this' = pre ++ post ->
  explicitlyDenies this role securable data
  = explicitlyDenies this' role securable data
  /\ (permits this' role securable data = true ->
      permits this role securable data = true).
Proof.
  intros Hgrant Hthis Hthis'.
  assert (forall name, denied this securable data name
                       = denied this' securable data name) as Hdenied.
  { intros name. unfold denied, _explicitlyDenies.
    destruct (found_with_entry _ _ _ _ _ name securable Hthis Hthis')
      as [found [found' [-> ->]]].
    destruct (pertains name securable entry); [|reflexivity].
    apply _interrogate_congruence, _interrogate_other_polarity. exact Hgrant. }
  assert (forall name, granted this' securable data name = true ->
                       granted this securable data name = true) as Hgranted.
  { intros name. unfold granted, _permits.
    destruct (found_with_entry _ _ _ _ _ name securable Hthis Hthis')
      as [found [found' [-> ->]]].
    destruct (pertains name securable entry); [|tauto].
    apply grant_scan_insert. }
  rewrite !permits_names, !explicitlyDenies_names.
  rewrite (existsb_pointwise (denied this securable data)
             (denied this' securable data))
    by (apply Forall_forall; intros; apply Hdenied).
  split; [reflexivity|].
  rewrite !andb_true_iff. intros [Hd Hg]. split; [exact Hd|].
  revert Hg. apply existsb_mono, Hgranted.
Qed.

(** X15. Putting a denial into a policy, at any place, grants nothing and
    takes no explicit denial away. *)
Theorem adding_a_denial this this' pre entry post role securable data :
  strategy entry = VBoolean false ->
  _policy this = pre ++ entry :: post ->
  _policy this' = pre ++ post ->
  (explicitlyDenies this' role securable data = true ->
   explicitlyDenies this role securable data = true)
  /\ (permits this role securable data = true ->
      permits this' role securable data = true).
Proof.
  intros Hdeny Hthis Hthis'.
  assert (forall name, denied this' securable data name = true ->
                       denied this securable data name = true) as Hdenied.
  { intros name. unfold denied, _explicitlyDenies.
    destruct (found_with_entry _ _ _ _ _ name securable Hthis Hthis')
      as [found [found' [-> ->]]].
    destruct (pertains name securable entry); [|tauto].
    apply deny_scan_insert. exact Hdeny. }
  assert (forall name, granted this securable data name
                       = granted this' securable data name) as Hgranted.
  { intros name. unfold granted, _permits.
    destruct (found_with_entry _ _ _ _ _ name securable Hthis Hthis')
      as [found [found' [-> ->]]].
    destruct (pertains name securable entry); [|reflexivity].
    apply _interrogate_congruence, _interrogate_other_polarity. exact Hdeny. }
  rewrite !permits_names, !explicitlyDenies_names.
  rewrite (existsb_pointwise (granted this securable data)
             (granted this' securable data))
    by (apply Forall_forall; intros; apply Hgranted).
  split; [apply existsb_mono, Hdenied|].
  rewrite !andb_true_iff, !negb_true_iff. intros [Hd Hg]. split; [|exact Hg].
  destruct (existsb (denied this' securable data) (names role)) eqn:H;
    [|reflexivity].
  rewrite (existsb_mono _ _ _ Hdenied H) in Hd. discriminate.
Qed.

(** X16. A request none of whose roles has a pertaining entry is neither
    permitted nor explicitly denied; so it is with every request against
    the empty policy. *)
Theorem no_entry_for_any_role this role securable data :
  (forall name entry,
     In name (names role) -> In entry (_policy this) ->
     pertains name securable entry = false) ->
  permits this role securable data = false
  /\ explicitlyDenies this role securable data = false.
Proof.
  intros Hnone.
  assert (forall name, In name (names role) ->
                       _findEntries this name securable = []) as Hfound.
  { intros name Hin. apply _findEntries_none. intros entry Hentry.
    apply (Hnone name entry Hin Hentry). }
  rewrite permits_names, explicitlyDenies_names.
  rewrite (existsb_none (granted this securable data)) by
    (intros name Hin; unfold granted; rewrite (Hfound name Hin); reflexivity).
  rewrite (existsb_none (denied this securable data)) by
    (intros name Hin; unfold denied; rewrite (Hfound name Hin); reflexivity).
  split; reflexivity.
Qed.

End Abstract.

(** *** MethodAccessControlRepository *)

Import Method MethodFacts Examples Policies.

Lemma existsb_and_constant (A : Type) (f : A -> bool) (b : bool) (l : list A) :
  existsb (fun x => f x && b) l = existsb f l && b.
Proof.
  induction l as [|a l IH]; simpl; [reflexivity|].
  rewrite IH. destruct (f a), b; simpl; try reflexivity.
  rewrite andb_false_r. reflexivity.
Qed.


(** X18. Against the default policy no role argument is explicitly denied,
    and an array of roles is permitted exactly when the class name and the
    method name hold no line terminator and neither does one of the role
    names; the empty array is not permitted. *)
Theorem default_policy_role_arrays (Data : Type) :
  exists this,
    Method.constructor (Data := Data) NoPolicy = inr this
    /\ forall role securable data,
         explicitlyDenies this role securable data = false
         /\ permits this role securable data
            = existsb singleLine (names role)
              && singleLine (toString (optional class securable))
              && singleLine (toString (optional method securable)).
Proof.
  eexists. split; [apply constructor_default|].
  intros role securable data.
  rewrite permits_names, explicitlyDenies_names.
  set (this := {| _policy := DEFAULT_POLICY Data |}).
  assert (forall name, denied this securable data name = false) as Hd.
  { intros name. unfold denied.
    rewrite _findEntries_default by reflexivity.
    destruct (_ && _); reflexivity. }
  assert (forall name,
            granted this securable data name
            = singleLine name
              && singleLine (toString (optional class securable))
              && singleLine (toString (optional method securable))) as Hg.
  { intros name. unfold granted.
    rewrite _findEntries_default by reflexivity.
    destruct (_ && _); reflexivity. }
  rewrite (existsb_none (denied this securable data)) by (intros; apply Hd).
  split; [reflexivity|]. simpl.
  rewrite (existsb_pointwise (granted this securable data)
             (fun name =>
                singleLine name
                && singleLine (toString (optional class securable))
                && singleLine (toString (optional method securable))))
    by (apply Forall_forall; intros; apply Hg).
  rewrite existsb_and_constant.
  rewrite (existsb_and_constant singleLine). reflexivity.
Qed.

(** X2 on the entry of 'should deny all roles when strategy omitted in
    policy': its absent strategy becomes [false]. *)
Lemma _scrubPolicy_entry_witness :
  exists entry' : MethodEntry unit,
    nth_error (_scrubPolicy strategyOmitted) 0 = Some entry'
    /\ fields entry' = fields omitted
    /\ strategy entry' = VBoolean false.
Proof.
  destruct (_scrubPolicy_entry strategyOmitted 0 (entry := omitted) eq_refl)
    as [entry' [Hnth [Hfields [_ [_ Hfalsy]]]]].
  exists entry'. split; [exact Hnth|]. split; [exact Hfields|].
  apply Hfalsy. reflexivity.
Defined.

(** X4 on the repository of that policy. *)
Lemma constructed_policy_witness :
  exists this : Repository MethodFields Securable unit,
    Method.constructor (PolicyArray strategyOmitted) = inr this
    /\ Forall (fun entry =>
                 (exists r, roles entry = Some r
                            /\ forall name, _filterRoles entry name = test r name)
                 /\ (truthy (strategy entry) = true
                     \/ strategy entry = VBoolean false))
              (_policy this).
Proof.
  eexists. split; [reflexivity|].
  apply constructed_policy_is_normalized with (arg := PolicyArray strategyOmitted).
  reflexivity.
Defined.

(** X6 on the policy and the roles of 'should work when a role among many
    is denied'. *)
Lemma same_names_witness :
  exists this : Repository MethodFields Securable unit,
    Method.constructor (PolicyArray tellerAndDummy) = inr this
    /\ permits this tellerDummy fooBar tt
       = permits this dummyTellerTeller fooBar tt
    /\ explicitlyDenies this tellerDummy fooBar tt
       = explicitlyDenies this dummyTellerTeller fooBar tt.
Proof.
  eexists. split; [reflexivity|].
  apply same_names_same_answers.
  intros name. simpl. tauto.
Defined.

(** X8 on the same request: the denial is the entry for Dummy. *)
Lemma explicit_denial_witness :
  exists this : Repository MethodFields Securable unit,
    Method.constructor (PolicyArray tellerAndDummy) = inr this
    /\ exists name entry,
         In name (names tellerDummy)
         /\ In entry (_policy this)
         /\ pertains name fooBar entry = true
         /\ strategy entry = VBoolean false.
Proof.
  eexists. split; [reflexivity|].
  apply explicit_denial_has_a_denying_entry with (data := tt).
  reflexivity.
Defined.

(** X9 on a policy of one strategy function, for a manager. *)
Lemma permission_witness :
  exists this : Repository MethodFields Securable unit,
    Method.constructor (PolicyArray custom) = inr this
    /\ exists name entry,
         In name (names (Role (str "Manager")))
         /\ In entry (_policy this)
         /\ pertains name fooBar entry = true
         /\ (strategy entry = VBoolean true
             \/ exists f, strategy entry = VFunction f
                          /\ truthy (f name fooBar tt) = true).
Proof.
  eexists. split; [reflexivity|].
  apply permission_has_a_granting_entry.
  reflexivity.
Defined.

(** X10 on the policy of 'should work when a role among many is denied',
    for the role Dummy. *)
Lemma function_free_policy_witness :
  exists this : Repository MethodFields Securable unit,
    Method.constructor (PolicyArray tellerAndDummy) = inr this
    /\ (explicitlyDenies this (Role (str "Dummy")) fooBar tt = true <->
          exists entry, In entry (_policy this)
                        /\ pertains (str "Dummy") fooBar entry = true
                        /\ strategy entry = VBoolean false)
    /\ explicitlyDenies this (Role (str "Dummy")) fooBar tt = true.
Proof.
  eexists. split; [reflexivity|].
  split; [|reflexivity].
  apply function_free_policy.
  repeat (apply Forall_cons; [discriminate|]). apply Forall_nil.
Defined.

(** X11 on that policy and the policy of its entries in the other order. *)
Lemma function_free_order_witness :
  exists this this' : Repository MethodFields Securable unit,
    Method.constructor (PolicyArray tellerAndDummy) = inr this
    /\ Method.constructor (PolicyArray dummyAndTeller) = inr this'
    /\ permits this tellerDummy fooBar tt = permits this' tellerDummy fooBar tt
    /\ explicitlyDenies this tellerDummy fooBar tt
       = explicitlyDenies this' tellerDummy fooBar tt.
Proof.
  do 2 eexists. do 2 (split; [reflexivity|]).
  apply function_free_order_and_data.
  - repeat (apply Forall_cons; [discriminate|]). apply Forall_nil.
  - repeat (apply Forall_cons; [discriminate|]). apply Forall_nil.
  - intros entry. simpl. tauto.
Defined.

(** X12 on the policy of 'should deny with a single denial': the denial
    comes after two grants. *)
Lemma denial_before_any_function_witness :
  exists this : Repository MethodFields Securable unit,
    Method.constructor (PolicyArray singleDenial) = inr this
    /\ explicitlyDenies this Cowboy fooBar tt = true
    /\ permits this Cowboy fooBar tt = false.
Proof.
  eexists. split; [reflexivity|].
  apply denial_before_any_function
    with (pre := [cowboy (VBoolean true); cowboy (VBoolean true)])
         (entry := cowboy (VBoolean false)) (post := []).
  - reflexivity.
  - repeat (apply Forall_cons; [discriminate|]). apply Forall_nil.
  - reflexivity.
Defined.

(** X13 on the policy of 'should deny all roles when strategy omitted in
    policy'. *)
Lemma falsy_strategy_witness :
  exists this : Repository MethodFields Securable unit,
    Method.constructor (PolicyArray strategyOmitted) = inr this
    /\ explicitlyDenies this Cowboy fooBar tt = true
    /\ permits this Cowboy fooBar tt = false.
Proof.
  eexists. split; [reflexivity|].
  eapply falsy_strategy_denies
    with (pre := []) (entry := omitted) (post := []).
  - reflexivity.
  - apply Forall_nil.
  - reflexivity.
  - reflexivity.
  - reflexivity.
Defined.

(** X14: a second grant put between the grant and the denial. *)
Lemma adding_a_grant_witness :
  exists this this' : Repository MethodFields Securable unit,
    Method.constructor (PolicyArray singleDenial) = inr this
    /\ Method.constructor (PolicyArray grantThenDeny) = inr this'
    /\ explicitlyDenies this Cowboy fooBar tt
       = explicitlyDenies this' Cowboy fooBar tt
    /\ (permits this' Cowboy fooBar tt = true ->
        permits this Cowboy fooBar tt = true).
Proof.
  do 2 eexists. do 2 (split; [reflexivity|]).
  apply adding_a_grant
    with (pre := [cowboy (VBoolean true)]) (entry := cowboy (VBoolean true))
         (post := [cowboy (VBoolean false)]);
    reflexivity.
Defined.

(** X15: a denial put after a single grant. *)
Lemma adding_a_denial_witness :
  exists this this' : Repository MethodFields Securable unit,
    Method.constructor (PolicyArray grantThenDeny) = inr this
    /\ Method.constructor (PolicyArray grantOnly) = inr this'
    /\ permits this' Cowboy fooBar tt = true
    /\ (explicitlyDenies this' Cowboy fooBar tt = true ->
        explicitlyDenies this Cowboy fooBar tt = true)
    /\ (permits this Cowboy fooBar tt = true ->
        permits this' Cowboy fooBar tt = true).
Proof.
  do 2 eexists. do 3 (split; [reflexivity|]).
  apply adding_a_denial
    with (pre := [cowboy (VBoolean true)]) (entry := cowboy (VBoolean false))
         (post := []);
    reflexivity.
Defined.

(** X16 on the empty policy. *)
Lemma no_entry_witness :
  exists this : Repository MethodFields Securable unit,
    Method.constructor (PolicyArray []) = inr this
    /\ permits this tellerDummy fooBar tt = false
    /\ explicitlyDenies this tellerDummy fooBar tt = false.
Proof.
  eexists. split; [reflexivity|].
  apply no_entry_for_any_role.
  intros name entry _ [].
Defined.

End Extra.
